(** * LLM quiz solver: a shallow embedding of the Python sources

    The development follows the source files:
    - [Py]            the fragment of Python's built-in behaviour the code
                      relies on (text, truthiness, [str], [float], [json]);
    - [QuizSolver]    [quiz_solver.py]: fallback parser, answer coercion,
                      submission and the chain loop;
    - [DataProcessor] [data_processor.py]: text cleaning and PDF extraction;
    - [App]           [app.py]: the [/solve] endpoint.

    Text is modelled over the code points 0..255 (type [ascii], read as
    Latin-1).  Integers are unbounded [Z]; the interpreter's optional
    limit on the number of digits in conversions between int and str is
    left out.  Exceptions are those derived from [Exception]. *)

From Stdlib Require Import ZArith NArith List String Ascii Bool Lia.
From Stdlib Require Import DecimalString DecimalN DecimalZ DecimalPos SpecFloat.

Set Warnings "-register-all".
Import ListNotations.

Open Scope string_scope.
Open Scope Z_scope.

(* ================================================================= *)
(** ** Python text *)

Module Py.

Definition code (c : ascii) : N := N_of_ascii c.

(** The double-quote character. *)
Definition dquote : ascii := ascii_of_N 34.

(** [str.isspace] and the regex class [\s], on code points below 256. *)
Definition isspace (c : ascii) : bool :=
  let n := code c in
  ((9 <=? n) && (n <=? 13) || (28 <=? n) && (n <=? 32)
   || (n =? 133) || (n =? 160))%N.

(** [str.lower] maps one code point to one code point below 256:
    A-Z, and the Latin-1 capitals except the multiplication sign. *)
Definition lower_char (c : ascii) : ascii :=
  let n := code c in
  if ((65 <=? n) && (n <=? 90)
      || (192 <=? n) && (n <=? 222) && negb (n =? 215))%N
  then ascii_of_N (n + 32) else c.

Fixpoint lower (s : string) : string :=
  match s with
  | EmptyString => EmptyString
  | String c r => String (lower_char c) (lower r)
  end.

Definition is_digit (c : ascii) : bool :=
  let n := code c in ((48 <=? n) && (n <=? 57))%N.

Definition digit_val (c : ascii) : N := (code c - 48)%N.

(** [sub in s] *)
Fixpoint contains (sub s : string) : bool :=
  prefix sub s
  || match s with
     | EmptyString => false
     | String _ r => contains sub r
     end.

(** [s.endswith(suf)] *)
Fixpoint endswith (suf s : string) : bool :=
  String.eqb suf s
  || match s with
     | EmptyString => false
     | String _ r => endswith suf r
     end.

(** [x in xs] for a list of strings *)
Definition in_list (x : string) (xs : list string) : bool :=
  existsb (String.eqb x) xs.

Fixpoint drop_prefix (p s : string) : option string :=
  match p, s with
  | EmptyString, _ => Some s
  | String a p', String b s' =>
      if Ascii.eqb a b then drop_prefix p' s' else None
  | String _ _, EmptyString => None
  end.

(** Longest prefix whose characters satisfy [p], and the rest. *)
Fixpoint span (p : ascii -> bool) (s : string) : string * string :=
  match s with
  | EmptyString => (EmptyString, EmptyString)
  | String c r =>
      if p c then let (a, b) := span p r in (String c a, b)
      else (EmptyString, s)
  end.

(** Stripping the characters that satisfy [p] from the left, from the
    right. *)
Fixpoint lstrip_by (p : ascii -> bool) (s : string) : string :=
  match s with
  | EmptyString => EmptyString
  | String c r => if p c then lstrip_by p r else s
  end.

Fixpoint rstrip_by (p : ascii -> bool) (s : string) : string :=
  match s with
  | EmptyString => EmptyString
  | String c r =>
      match rstrip_by p r with
      | EmptyString => if p c then EmptyString else String c EmptyString
      | r' => String c r'
      end
  end.

Definition lstrip (s : string) : string := lstrip_by isspace s.
Definition rstrip (s : string) : string := rstrip_by isspace s.

(** [s.strip()] *)
Definition strip (s : string) : string := rstrip (lstrip s).

(** Left-to-right scan that deletes every non-overlapping match; [m s] is
    the length of the match that starts at the head of [s], if any.
    [skip] counts the characters of the current match still to drop. *)
Fixpoint delete_matches (m : string -> option nat) (skip : nat) (s : string)
  : string :=
  match s with
  | EmptyString => EmptyString
  | String c r =>
      match skip with
      | S k => delete_matches m k r
      | O =>
          match m s with
          | Some (S k) => delete_matches m k r
          | _ => String c (delete_matches m O r)
          end
      end
  end.

Definition match_literal (old s : string) : option nat :=
  if prefix old s then Some (String.length old) else None.

(** [s.replace(old, '')] for a non-empty [old] *)
Definition remove (old s : string) : string :=
  delete_matches (match_literal old) O s.

(** [s.split(sep)] for a one-character separator *)
Fixpoint split (sep : ascii) (s : string) : list string :=
  match s with
  | EmptyString => [EmptyString]
  | String c r =>
      if Ascii.eqb c sep then EmptyString :: split sep r
      else match split sep r with
           | [] => [String c EmptyString]
           | l :: ls => String c l :: ls
           end
  end.

(** [sep.join(xs)] *)
Fixpoint join (sep : string) (xs : list string) : string :=
  match xs with
  | [] => EmptyString
  | [x] => x
  | x :: rest => x ++ sep ++ join sep rest
  end.

(** Truthiness of a string and of an optional string ([None] or a str). *)
Definition truthy_str (s : string) : bool :=
  negb (String.eqb s EmptyString).

Definition truthy_opt (o : option string) : bool :=
  match o with
  | None => false
  | Some s => truthy_str s
  end.

(* ----------------------------------------------------------------- *)
(** *** Integers as text *)

(** [str(n)] for an int. *)
Definition str_of_N (n : N) : string := NilZero.string_of_uint (N.to_uint n).
Definition str_of_Z (z : Z) : string := NilZero.string_of_int (Z.to_int z).

(** Value of a string of ASCII digits (0 for the empty string). *)
Definition N_of_digits (s : string) : N :=
  match NilEmpty.uint_of_string s with
  | Some d => N.of_uint d
  | None => 0%N
  end.

Fixpoint zeros (n : nat) : string :=
  match n with
  | O => EmptyString
  | S k => String "0" (zeros k)
  end.

(* ----------------------------------------------------------------- *)
(** *** Floats

    A float is an IEEE-754 binary64 value: [S754_finite s m e] stands for
    (-1)^s * m * 2^e with m below 2^53 and e between -1074 and 971. *)

Definition float := spec_float.

(** Numerator and denominator of [n / (d * 2^e)] as integers. *)
Definition scaled_num (n e : Z) : Z := if 0 <=? e then n else n * 2 ^ (- e).
Definition scaled_den (d e : Z) : Z := if 0 <=? e then d * 2 ^ e else d.

(** The exponent at which [n/d] has a 53-bit quotient, and not below that
    of the subnormal numbers. *)
Definition pick_exponent (n d : Z) : Z :=
  let e1 := Z.log2 n - Z.log2 d - 52 in
  let q1 := scaled_num n e1 / scaled_den d e1 in
  Z.max (if 2 ^ 52 <=? q1 then e1 else e1 - 1) (-1074).

(** [num / den] rounded to the nearest integer, ties to even. *)
Definition round_half_even (num den : Z) : Z :=
  let q := num / den in
  let r := num mod den in
  if (den <? 2 * r) || ((den =? 2 * r) && Z.odd q) then q + 1 else q.

(** The binary64 nearest to the positive rational [n/d], ties to even. *)
Definition round_ratio (neg : bool) (n d : positive) : float :=
  let e := pick_exponent (Zpos n) (Zpos d) in
  let q := round_half_even (scaled_num (Zpos n) e) (scaled_den (Zpos d) e) in
  let '(m, e') := if q =? 2 ^ 53 then (2 ^ 52, e + 1) else (q, e) in
  if 971 <? e' then S754_infinity neg
  else match m with
       | Zpos p => S754_finite neg p e'
       | _ => S754_zero neg
       end.

(** The binary64 nearest to [m * 10^e]. *)
Definition float_of_decimal (neg : bool) (m : N) (e : Z) : float :=
  match m with
  | N0 => S754_zero neg
  | Npos p =>
      if 0 <=? e then
        match Zpos p * 10 ^ e with
        | Zpos n => round_ratio neg n 1
        | _ => S754_zero neg
        end
      else
        match 10 ^ (- e) with
        | Zpos d => round_ratio neg p d
        | _ => S754_zero neg
        end
  end.

(** Whitespace that [float()] strips at both ends. *)
Definition float_space (c : ascii) : bool :=
  let n := code c in
  ((9 <=? n) && (n <=? 13) || (n =? 32) || (n =? 133) || (n =? 160))%N.

(** An underscore is accepted only between two digits; it is dropped. *)
Fixpoint drop_underscores (prev_digit : bool) (s : string) : option string :=
  match s with
  | EmptyString => Some EmptyString
  | String c r =>
      if Ascii.eqb c "_" then
        match r with
        | String d _ =>
            if prev_digit && is_digit d then drop_underscores false r
            else None
        | EmptyString => None
        end
      else
        match drop_underscores (is_digit c) r with
        | Some r' => Some (String c r')
        | None => None
        end
  end.

Definition split_sign (s : string) : bool * string :=
  match s with
  | String "-" r => (true, r)
  | String "+" r => (false, r)
  | _ => (false, s)
  end.

(** The exponent part: e or E, an optional sign, one or more digits. *)
Definition parse_exponent (s : string) : option Z :=
  match s with
  | EmptyString => Some 0
  | String c r =>
      if Ascii.eqb c "e" || Ascii.eqb c "E" then
        let (neg, r1) := split_sign r in
        match span is_digit r1 with
        | (EmptyString, _) => None
        | (ds, EmptyString) =>
            let v := Z.of_N (N_of_digits ds) in
            Some (if neg then - v else v)
        | (_, String _ _) => None
        end
      else None
  end.

(** [float(s)] for a str; [None] when it raises [ValueError]. *)
Definition parse_float (s : string) : option float :=
  let s1 := rstrip_by float_space (lstrip_by float_space s) in
  match drop_underscores false s1 with
  | None => None
  | Some s2 =>
      let (neg, body) := split_sign s2 in
      let word := lower body in
      if String.eqb word "inf" || String.eqb word "infinity"
      then Some (S754_infinity neg)
      else if String.eqb word "nan" then Some S754_nan
      else
        let (ip, r1) := span is_digit body in
        let (fp, r2) :=
          match r1 with
          | String "." r => span is_digit r
          | _ => (EmptyString, r1)
          end in
        match (ip ++ fp)%string with
        | EmptyString => None
        | digits =>
            match parse_exponent r2 with
            | None => None
            | Some ex =>
                Some (float_of_decimal neg (N_of_digits digits)
                        (ex - Z.of_nat (String.length fp)))
            end
        end
  end.

Inductive int_result :=
| IntOk (z : Z)
| IntOverflowError
| IntValueError.

(** [int(f)]: truncation towards zero. *)
Definition int_of_float (f : float) : int_result :=
  match f with
  | S754_zero _ => IntOk 0
  | S754_infinity _ => IntOverflowError
  | S754_nan => IntValueError
  | S754_finite s m e =>
      let a := if 0 <=? e then Zpos m * 2 ^ e else Zpos m / 2 ^ (- e) in
      IntOk (if s then - a else a)
  end.

(** [10^t <= n/d] *)
Definition pow10_le (t : Z) (n d : Z) : bool :=
  if 0 <=? t then d * 10 ^ t <=? n else d <=? n * 10 ^ (- t).

Fixpoint raise_log10 (fuel : nat) (t : Z) (n d : Z) : Z :=
  match fuel with
  | O => t
  | S k => if pow10_le (t + 1) n d then raise_log10 k (t + 1) n d else t
  end.

(** The integer [t] with [10^t <= n/d < 10^(t+1)]. *)
Definition ilog10 (n d : Z) : Z :=
  let l := Z.log2 n - Z.log2 d in
  raise_log10 6 (l * 30103 / 100000 - 1) n d.

Fixpoint strip_zeros (fuel : nat) (dg : Z) (p : Z) : Z * Z :=
  match fuel with
  | O => (dg, p)
  | S k => if (dg mod 10 =? 0) && negb (dg =? 0)
           then strip_zeros k (dg / 10) (p + 1) else (dg, p)
  end.

(** The candidates with [k] digits around [n/d]: the decimal [lo * 10^p]
    just below and [(lo+1) * 10^p] just above; the one that reads back as
    [f], the nearer one when both do. *)
Definition digits_at (f : float) (n d : Z) (t : Z) (k : Z) (force : bool)
  : option (Z * Z) :=
  let p := t - (k - 1) in
  let num := if 0 <=? p then n else n * 10 ^ (- p) in
  let den := if 0 <=? p then d * 10 ^ p else d in
  let lo := num / den in
  let r := num mod den in
  let reads dg :=
    match float_of_decimal false (Z.to_N dg) p, f with
    | S754_finite _ m1 e1, S754_finite _ m2 e2 =>
        Pos.eqb m1 m2 && (e1 =? e2)
    | _, _ => false
    end in
  let lo_near := (2 * r <? den) || ((2 * r =? den) && Z.even lo) in
  match reads lo, reads (lo + 1) with
  | true, true => Some (if lo_near then lo else lo + 1, p)
  | true, false => Some (lo, p)
  | false, true => Some (lo + 1, p)
  | false, false =>
      if force then Some (if lo_near then lo else lo + 1, p) else None
  end.

Fixpoint shortest_from (fuel : nat) (f : float) (n d t k : Z) : Z * Z :=
  match fuel with
  | O => match digits_at f n d t k true with
         | Some x => x
         | None => (0, 0)
         end
  | S fuel' =>
      match digits_at f n d t k false with
      | Some x => x
      | None => shortest_from fuel' f n d t (k + 1)
      end
  end.

(** The shortest decimal [dg * 10^p] (1 to 17 digits, no trailing zero)
    that reads back as the finite positive float [m * 2^e]. *)
Definition shortest_digits (m : positive) (e : Z) : Z * Z :=
  let n := if 0 <=? e then Zpos m * 2 ^ e else Zpos m in
  let d := if 0 <=? e then 1 else 2 ^ (- e) in
  let (dg, p) :=
    shortest_from 16 (S754_finite false m e) n d (ilog10 n d) 1 in
  strip_zeros 400 dg p.

(** [repr(f)], which is also [str(f)]: fixed notation when the decimal
    point falls within the digits or at most 3 zeros before and up to
    position 16, exponent notation otherwise. *)
Definition float_repr (f : float) : string :=
  match f with
  | S754_nan => "nan"
  | S754_infinity s => if s then "-inf" else "inf"
  | S754_zero s => if s then "-0.0" else "0.0"
  | S754_finite s m e =>
      let (dg, p) := shortest_digits m e in
      let ds := str_of_Z dg in
      let n := Z.of_nat (String.length ds) in
      let decpt := p + n in
      let body :=
        if (-4 <? decpt) && (decpt <=? 16) then
          if decpt <=? 0 then "0." ++ zeros (Z.to_nat (- decpt)) ++ ds
          else if n <=? decpt then ds ++ zeros (Z.to_nat (decpt - n)) ++ ".0"
          else substring 0 (Z.to_nat decpt) ds ++ "."
               ++ substring (Z.to_nat decpt) (Z.to_nat (n - decpt)) ds
        else
          let ex := decpt - 1 in
          let mant :=
            match ds with
            | String c EmptyString => ds
            | String c r => String c ("." ++ r)
            | EmptyString => ds
            end in
          let exs := str_of_Z (Z.abs ex) in
          mant ++ "e" ++ (if ex <? 0 then "-" else "+")
               ++ (if Z.abs ex <? 10 then "0" else "") ++ exs in
      if s then "-" ++ body else body
  end.

(* ----------------------------------------------------------------- *)
(** *** Values *)

Inductive value :=
| VNone
| VBool (b : bool)
| VInt (z : Z)
| VFloat (f : float)
| VStr (s : string)
| VList (xs : list value)
| VDict (kvs : list (string * value)).

Definition hex_digit (n : N) : ascii :=
  ascii_of_N (if (n <? 10)%N then n + 48 else n + 87).

(** [c.isprintable()] below 256, as [repr] uses it. *)
Definition isprintable (c : ascii) : bool :=
  let n := code c in
  ((32 <=? n) && (n <? 127) || (161 <=? n) && negb (n =? 173))%N.

Fixpoint repr_chars (quote : ascii) (s : string) : string :=
  match s with
  | EmptyString => EmptyString
  | String c r =>
      let rest := repr_chars quote r in
      if Ascii.eqb c quote || Ascii.eqb c "\" then String "\" (String c rest)
      else if (code c =? 9)%N then "\t" ++ rest
      else if (code c =? 10)%N then "\n" ++ rest
      else if (code c =? 13)%N then "\r" ++ rest
      else if isprintable c then String c rest
      else "\x" ++ String (hex_digit (code c / 16)) (String (hex_digit (code c mod 16)) rest)
  end.

(** [repr(s)] for a str: single quotes unless the text has a single quote
    and no double quote. *)
Definition repr_str (s : string) : string :=
  let quote :=
    if contains "'" s && negb (contains (String dquote EmptyString) s)
    then dquote else "'"%char in
  String quote (repr_chars quote s ++ String quote EmptyString).

Fixpoint py_repr (v : value) : string :=
  match v with
  | VNone => "None"
  | VBool b => if b then "True" else "False"
  | VInt z => str_of_Z z
  | VFloat f => float_repr f
  | VStr s => repr_str s
  | VList xs => "[" ++ join ", " (map py_repr xs) ++ "]"
  | VDict kvs =>
      "{" ++ join ", " (map (fun kv => repr_str (fst kv) ++ ": " ++ py_repr (snd kv)) kvs)
          ++ "}"
  end.

(** [str(v)] *)
Definition py_str (v : value) : string :=
  match v with
  | VStr s => s
  | _ => py_repr v
  end.

(** Truth value of [v] in a condition. *)
Definition truthy (v : value) : bool :=
  match v with
  | VNone => false
  | VBool b => b
  | VInt z => negb (z =? 0)
  | VFloat (S754_zero _) => false
  | VFloat _ => true
  | VStr s => truthy_str s
  | VList xs => match xs with [] => false | _ => true end
  | VDict kvs => match kvs with [] => false | _ => true end
  end.

Fixpoint assoc (k : string) (kvs : list (string * value)) : option value :=
  match kvs with
  | [] => None
  | (k', v) :: rest => if String.eqb k k' then Some v else assoc k rest
  end.

(** [d[k] = v] on a dict kept in insertion order. *)
Fixpoint dict_set (k : string) (v : value) (kvs : list (string * value))
  : list (string * value) :=
  match kvs with
  | [] => [(k, v)]
  | (k', v') :: rest =>
      if String.eqb k k' then (k', v) :: rest
      else (k', v') :: dict_set k v rest
  end.

(** [v.get(k)]: the entry or [None] for a dict; [AttributeError], here
    [None] at the outer level, for a value that is not a dict. *)
Definition dict_get (v : value) (k : string) : option value :=
  match v with
  | VDict kvs => Some (match assoc k kvs with Some x => x | None => VNone end)
  | _ => None
  end.

(* ----------------------------------------------------------------- *)
(** *** [json.loads]

    The decoder of the standard library, for a str argument: literals,
    numbers, strings with escapes, arrays, objects; also the constants
    NaN, Infinity and -Infinity that it accepts.  [None] stands for
    [JSONDecodeError].  An escape that denotes a code point above 255 is
    outside the alphabet of this model and is reported as [None] as well. *)

Definition json_ws (c : ascii) : bool :=
  let n := code c in ((n =? 32) || (n =? 9) || (n =? 10) || (n =? 13))%N.

Definition skip_ws (s : string) : string := lstrip_by json_ws s.

Definition hex_val (c : ascii) : option N :=
  let n := code c in
  if ((48 <=? n) && (n <=? 57))%N then Some (n - 48)%N
  else if ((97 <=? n) && (n <=? 102))%N then Some (n - 87)%N
  else if ((65 <=? n) && (n <=? 70))%N then Some (n - 55)%N
  else None.

Definition hex4 (a b c d : ascii) : option N :=
  match hex_val a, hex_val b, hex_val c, hex_val d with
  | Some x, Some y, Some z, Some w => Some (((x * 16 + y) * 16 + z) * 16 + w)%N
  | _, _, _, _ => None
  end.

Definition cons_char (c : ascii) (r : option (string * string))
  : option (string * string) :=
  match r with
  | Some (str, rest) => Some (String c str, rest)
  | None => None
  end.

(** The text of a string literal after its opening quote, and what
    follows the closing quote (strict mode: no raw control character). *)
Fixpoint scanstring (s : string) : option (string * string) :=
  match s with
  | EmptyString => None
  | String c r =>
      if Ascii.eqb c dquote then Some (EmptyString, r)
      else if Ascii.eqb c "\" then
        match r with
        | String "u" (String h1 (String h2 (String h3 (String h4 r')))) =>
            match hex4 h1 h2 h3 h4 with
            | Some n =>
                if (n <? 256)%N then cons_char (ascii_of_N n) (scanstring r')
                else None
            | None => None
            end
        | String e r' =>
            if Ascii.eqb e dquote then cons_char dquote (scanstring r')
            else if Ascii.eqb e "\" then cons_char "\" (scanstring r')
            else if Ascii.eqb e "/" then cons_char "/" (scanstring r')
            else if Ascii.eqb e "b" then cons_char (ascii_of_N 8) (scanstring r')
            else if Ascii.eqb e "f" then cons_char (ascii_of_N 12) (scanstring r')
            else if Ascii.eqb e "n" then cons_char (ascii_of_N 10) (scanstring r')
            else if Ascii.eqb e "r" then cons_char (ascii_of_N 13) (scanstring r')
            else if Ascii.eqb e "t" then cons_char (ascii_of_N 9) (scanstring r')
            else None
        | EmptyString => None
        end
      else if (code c <? 32)%N then None
      else cons_char c (scanstring r)
  end.

(** The number pattern: an optional minus, 0 or a digit run without
    leading zero, an optional fraction, an optional exponent.  An int when
    neither fraction nor exponent is present, a float otherwise. *)
Definition scan_number (s : string) : option (value * string) :=
  let (neg, r0) :=
    match s with
    | String "-" r => (true, r)
    | _ => (false, s)
    end in
  let int_part :=
    match r0 with
    | String "0" r => Some ("0", r)
    | String c _ => if is_digit c then Some (span is_digit r0) else None
    | EmptyString => None
    end in
  match int_part with
  | None => None
  | Some (ip, r1) =>
      let '(fp, r2) :=
        match r1 with
        | String "." r =>
            match span is_digit r with
            | (EmptyString, _) => (EmptyString, r1)
            | (ds, r') => (ds, r')
            end
        | _ => (EmptyString, r1)
        end in
      let '(ex, r3) :=
        match r2 with
        | String c r =>
            if Ascii.eqb c "e" || Ascii.eqb c "E" then
              let (eneg, r') :=
                match r with
                | String "-" t => (true, t)
                | String "+" t => (false, t)
                | _ => (false, r)
                end in
              match span is_digit r' with
              | (EmptyString, _) => (None, r2)
              | (ds, r'') =>
                  let v := Z.of_N (N_of_digits ds) in
                  (Some (if eneg then - v else v), r'')
              end
            else (None, r2)
        | EmptyString => (None, r2)
        end in
      match fp, ex with
      | EmptyString, None =>
          let v := Z.of_N (N_of_digits ip) in
          Some (VInt (if neg then - v else v), r3)
      | _, _ =>
          let e := match ex with Some e => e | None => 0 end in
          Some (VFloat (float_of_decimal neg (N_of_digits (ip ++ fp))
                          (e - Z.of_nat (String.length fp))), r3)
      end
  end.

Definition scan_constant (s : string) : option (value * string) :=
  match drop_prefix "null" s with
  | Some r => Some (VNone, r)
  | None =>
  match drop_prefix "true" s with
  | Some r => Some (VBool true, r)
  | None =>
  match drop_prefix "false" s with
  | Some r => Some (VBool false, r)
  | None =>
  match scan_number s with
  | Some x => Some x
  | None =>
  match drop_prefix "NaN" s with
  | Some r => Some (VFloat S754_nan, r)
  | None =>
  match drop_prefix "Infinity" s with
  | Some r => Some (VFloat (S754_infinity false), r)
  | None =>
  match drop_prefix "-Infinity" s with
  | Some r => Some (VFloat (S754_infinity true), r)
  | None => None
  end end end end end end end.

(** [scan_once]; [scan_elements] reads the rest of an array once its
    opening bracket (and the elements in [acc]) are read, [scan_members]
    the rest of an object up to the key that comes next. *)
Fixpoint scan_once (fuel : nat) (s : string) : option (value * string) :=
  match fuel with
  | O => None
  | S k =>
      match s with
      | EmptyString => None
      | String c r =>
          if Ascii.eqb c dquote then
            match scanstring r with
            | Some (str, r') => Some (VStr str, r')
            | None => None
            end
          else if Ascii.eqb c "{" then
            match skip_ws r with
            | String "}" r' => Some (VDict [], r')
            | String q r' =>
                if Ascii.eqb q dquote then scan_members k [] r' else None
            | EmptyString => None
            end
          else if Ascii.eqb c "[" then
            match skip_ws r with
            | String "]" r' => Some (VList [], r')
            | r' => scan_elements k [] r'
            end
          else scan_constant s
      end
  end
with scan_elements (fuel : nat) (acc : list value) (s : string)
  : option (value * string) :=
  match fuel with
  | O => None
  | S k =>
      match scan_once k s with
      | None => None
      | Some (v, r) =>
          match skip_ws r with
          | String "]" r' => Some (VList (acc ++ [v]), r')
          | String "," r' => scan_elements k (acc ++ [v]) (skip_ws r')
          | _ => None
          end
      end
  end
with scan_members (fuel : nat) (acc : list (string * value)) (s : string)
  : option (value * string) :=
  match fuel with
  | O => None
  | S k =>
      match scanstring s with
      | None => None
      | Some (key, r) =>
          match skip_ws r with
          | String ":" r1 =>
              match scan_once k (skip_ws r1) with
              | None => None
              | Some (v, r2) =>
                  match skip_ws r2 with
                  | String "}" r' => Some (VDict (dict_set key v acc), r')
                  | String "," r' =>
                      match skip_ws r' with
                      | String q r'' =>
                          if Ascii.eqb q dquote
                          then scan_members k (dict_set key v acc) r''
                          else None
                      | EmptyString => None
                      end
                  | _ => None
                  end
              end
          | _ => None
          end
      end
  end.

(** [json.loads(s)]: one value, whitespace allowed around it. *)
Definition json_loads (s : string) : option value :=
  match scan_once (2 * String.length s + 2) (skip_ws s) with
  | Some (v, r) =>
      match skip_ws r with
      | EmptyString => Some v
      | String _ _ => None
      end
  | None => None
  end.

(* ----------------------------------------------------------------- *)
(** *** Exceptions *)

Inductive exn_class :=
| HTTPError                 (* requests.exceptions.HTTPError *)
| HTTPException (status : Z) (* fastapi.HTTPException *)
| ValueError
| AttributeError
| UnboundLocalError
| OtherException.           (* any other subclass of Exception *)

Record exn := mk_exn { exn_kind : exn_class; exn_msg : string }.

(** Outcome of a call: a value, or an exception on its way up. *)
Inductive result (A : Type) :=
| Ok (a : A)
| Raise (e : exn).
Arguments Ok {A} a.
Arguments Raise {A} e.

Definition bind {A B : Type} (r : result A) (k : A -> result B) : result B :=
  match r with
  | Ok a => k a
  | Raise e => Raise e
  end.

Notation "x <- r ;; k" := (bind r (fun x => k))
  (at level 61, r at next level, right associativity).
Notation "' p <- r ;; k" := (bind r (fun p => k))
  (at level 61, p pattern, r at next level, right associativity).

Definition is_http_error (e : exn) : bool :=
  match exn_kind e with
  | HTTPError => true
  | _ => false
  end.

Definition nl : ascii := ascii_of_N 10.

End Py.


(* ================================================================= *)
(** ** llm_handler.py *)

Module LLMHandler.
Import Py.

(** The variables read with [os.getenv]. *)
Record environ := {
  SECRET_STRING : option string;
  STUDENT_EMAIL : option string;
  GEMINI_API_KEY : option string
}.

(** [LLMHandler.__init__]: refuses to start without an API key. *)
Definition __init__ (env : environ) : result unit :=
  let api_key := GEMINI_API_KEY env in
  if negb (truthy_opt api_key)
  then Raise (mk_exn ValueError
                "GEMINI_API_KEY not found in environment variables")
  else Ok tt.

End LLMHandler.

(* ================================================================= *)
(** ** data_processor.py *)

Module DataProcessor.
Import Py.

(** [DataProcessor.__init__] builds its own [LLMHandler]. *)
Definition __init__ (env : LLMHandler.environ) : result unit :=
  LLMHandler.__init__ env.

(** *** [_extract_answer] *)











(** *** [extract_pdf_data] *)

Section Pdf.

(** What [pandas.DataFrame(data_rows, columns=headers)] builds, or the
    exception it raises on a table it cannot lay out. *)
Variable DataFrame_t : Type.
Variable DataFrame :
  list (list (option string)) -> list (option string) -> result DataFrame_t.

Definition table := list (list (option string)).

(** A page as pdfplumber serves it: both calls may raise. *)
Record plumber_page := {
  extract_text : result (option string);
  extract_tables : result (list table)
}.

Record table_entry := {
  page : nat;
  table_number : nat;
  data : DataFrame_t
}.

Definition page_header (page_num : nat) (text : string) : string :=
  "=== Page " ++ str_of_N (N.of_nat page_num) ++ " ===" ++ String nl text.

(** [for table_idx, table in enumerate(page_tables)]: a table that cannot
    be laid out is reported and left out; the loop goes on. *)
Fixpoint page_tables_loop (page_num table_idx : nat) (page_tables : list table)
  (tables : list table_entry) : list table_entry :=
  match page_tables with
  | [] => tables
  | t :: rest =>
      let tables :=
        match t with
        | [] => tables
        | headers :: data_rows =>
            match DataFrame data_rows headers with
            | Ok df =>
                (tables ++ [{| page := page_num;
                               table_number := table_idx + 1;
                               data := df |}])%list
            | Raise _ => tables
            end
        end in
      page_tables_loop page_num (S table_idx) rest tables
  end.

(** [for page_num, page in enumerate(pdf.pages, 1)]: stops at the first
    exception, which leaves the loop with what was gathered so far. *)
Fixpoint plumber_loop (page_num : nat) (pages : list plumber_page)
  (text_data : list string) (tables : list table_entry)
  : list string * list table_entry * option exn :=
  match pages with
  | [] => (text_data, tables, None)
  | pg :: rest =>
      match extract_text pg with
      | Raise e => (text_data, tables, Some e)
      | Ok text =>
          let text_data :=
            match text with
            | Some t => if truthy_str t
                        then (text_data ++ [page_header page_num t])%list
                        else text_data
            | None => text_data
            end in
          match extract_tables pg with
          | Raise e => (text_data, tables, Some e)
          | Ok page_tables =>
              plumber_loop (S page_num) rest text_data
                (page_tables_loop page_num O page_tables tables)
          end
      end
  end.

(** The PyPDF2 fallback: text only. *)
Fixpoint pypdf2_loop (page_num : nat) (pages : list (result (option string)))
  (text_data : list string) : list string :=
  match pages with
  | [] => text_data
  | pg :: rest =>
      match pg with
      | Raise _ => text_data
      | Ok text =>
          let text_data :=
            match text with
            | Some t => if truthy_str t
                        then (text_data ++ [page_header page_num t])%list
                        else text_data
            | None => text_data
            end in
          pypdf2_loop (S page_num) rest text_data
      end
  end.

Record pdf_data := {
  text : string;
  tables : list table_entry
}.

(** [plumber] is what [pdfplumber.open] gives on the bytes and [pypdf2]
    what [PyPDF2.PdfReader] gives (each may fail as a whole). *)
Definition extract_pdf_data
  (plumber : result (list plumber_page))
  (pypdf2 : result (list (result (option string)))) : pdf_data :=
  let '(text_data, tables, failure) :=
    match plumber with
    | Ok pages => plumber_loop 1 pages [] []
    | Raise e => ([], [], Some e)
    end in
  let text_data :=
    match failure with
    | None => text_data
    | Some _ =>
        match pypdf2 with
        | Ok pages => pypdf2_loop 1 pages text_data
        | Raise _ => text_data
        end
    end in
  {| text := join (String nl (String nl EmptyString)) text_data;
     tables := tables |}.

End Pdf.

End DataProcessor.

(* ================================================================= *)
(** ** quiz_solver.py *)

Module QuizSolver.
Import Py.

(** *** [_manual_parse] *)

(** The negated class of the URL pattern: no whitespace and none of
    less-than, greater-than, double quote, braces, bar, backslash, caret,
    backquote, square brackets. *)
Definition url_char (c : ascii) : bool :=
  negb (isspace c
        || existsb (Ascii.eqb c)
             ["<"; ">"; dquote; "{"; "}"; "|"; "\"; "^"; "`"; "["; "]"]%char).

(** A match of the URL pattern at the head of [s]: http, an optional s,
    a colon and two slashes, then one or more characters of [url_char]
    (greedy; the run cannot be shortened to any effect). *)
Definition match_url (s : string) : option string :=
  match drop_prefix "http" s with
  | None => None
  | Some r1 =>
      let '(scheme, r2) :=
        match r1 with
        | String "s"%char r => ("https", r)
        | _ => ("http", r1)
        end in
      match drop_prefix "://" r2 with
      | None => None
      | Some r3 =>
          match span url_char r3 with
          | (EmptyString, _) => None
          | (run, _) => Some (scheme ++ "://" ++ run)
          end
      end
  end.

(** [re.findall(url_pattern, question_text)]: the non-overlapping matches,
    left to right. *)
Fixpoint findall_urls (skip : nat) (s : string) : list string :=
  match s with
  | EmptyString => []
  | String _ r =>
      match skip with
      | S k => findall_urls k r
      | O =>
          match match_url s with
          | Some u => u :: findall_urls (String.length u - 1) r
          | None => findall_urls O r
          end
      end
  end.

Definition data_extensions : list string :=
  [".pdf"; ".csv"; ".json"; ".xlsx"; ".xls"].

(** The two tests of the loop body. *)
Definition is_submit (url : string) : bool :=
  contains "submit" (lower url) || contains "answer" (lower url).

Definition has_data_ext (url : string) : bool :=
  existsb (fun ext => contains ext (lower url)) data_extensions.

(** The [elif] branch is reached only when the first test fails. *)
Definition is_data (url : string) : bool :=
  negb (is_submit url) && has_data_ext url.

(** One pass of [for url in urls] over the pair (data_url, submit_url). *)
Definition classify_step (st : option string * option string) (url : string)
  : option string * option string :=
  let (data_url, submit_url) := st in
  if is_submit url then (data_url, Some url)
  else if has_data_ext url then (Some url, submit_url)
  else st.

Record parsed_question := {
  data_url : option string;
  task : string;
  submit_url : string;
  answer_format : string
}.

Definition or_else (a b : option string) : option string :=
  match a with Some _ => a | None => b end.

Definition last_opt (urls : list string) : option string :=
  match rev urls with
  | [] => None
  | u :: _ => Some u
  end.

Definition _manual_parse (question_text : string) : parsed_question :=
  let urls := findall_urls O question_text in
  let (data_url, submit_url) := fold_left classify_step urls (None, None) in
  let submit_url :=
    if negb (truthy_opt submit_url) && negb (match urls with [] => true | _ => false end)
    then last_opt urls
    else submit_url in
  {| data_url := data_url;
     task := "Analyze the data and provide the answer as requested in the question";
     submit_url := match submit_url with
                   | Some u => if truthy_str u then u else ""
                   | None => ""
                   end;
     answer_format := "string" |}.

(** *** [_format_answer] *)

Definition boolean_words : list string :=
  ["true"; "1"; "yes"; "correct"; "y"].

Definition _format_answer (answer : value) (format_type : string) : value :=
  if String.eqb format_type "number" then
    let answer_str := strip (remove " " (remove "," (py_str answer))) in
    match parse_float answer_str with
    | None => answer
    | Some f =>
        if contains "." answer_str then VFloat f
        else match int_of_float f with
             | IntOk z => VInt z
             | _ => answer
             end
    end
  else if String.eqb format_type "boolean" then
    VBool (in_list (lower (py_str answer)) boolean_words)
  else if String.eqb format_type "object" then
    match answer with
    | VStr s =>
        match json_loads s with
        | Some v => v
        | None => VDict [("value", answer)]
        end
    | _ => answer
    end
  else VStr (strip (py_str answer)).

(** *** [__init__] and [submit_answer] *)

Record solver := {
  email : option string;
  secret : option string
}.

Definition __init__ (env : LLMHandler.environ) : result solver :=
  _ <- LLMHandler.__init__ env ;;
  _ <- DataProcessor.__init__ env ;;
  Ok {| email := LLMHandler.STUDENT_EMAIL env;
        secret := LLMHandler.SECRET_STRING env |}.

(** What [requests.post] hands back: the status line, the body, and the
    outcome of decoding the body with [response.json()]. *)
Record response := {
  status_code : Z;
  text : string;
  json : result value
}.

(** [response.raise_for_status()] of the requests library: [HTTPError]
    for a status from 400 to 599, nothing otherwise. *)
Definition raise_for_status (r : response) : result unit :=
  if (400 <=? status_code r) && (status_code r <? 600)
  then Raise (mk_exn HTTPError "HTTPError")
  else Ok tt.

Definition opt_value (o : option string) : value :=
  match o with
  | Some s => VStr s
  | None => VNone
  end.

Definition submission_payload (self : solver) (answer : value) : value :=
  VDict [("email", opt_value (email self));
         ("secret", opt_value (secret self));
         ("answer", answer)].

(** [post] stands for [requests.post(submit_url, json=payload, timeout=30)].
    The first handler reads [response], which is bound only once the call
    has returned. *)
Definition submit_answer (self : solver)
  (post : value -> value -> result response)
  (submit_url : value) (answer : value) : result value :=
  let payload := submission_payload self answer in
  match post submit_url payload with
  | Raise e =>
      if is_http_error e
      then Raise (mk_exn UnboundLocalError
                    "cannot access local variable 'response'")
      else Ok (VDict [("correct", VBool false); ("error", VStr (exn_msg e))])
  | Ok response =>
      match (_ <- raise_for_status response ;; json response) with
      | Ok body => Ok body
      | Raise e =>
          if is_http_error e
          then Ok (VDict [("correct", VBool false);
                          ("error", VStr ("HTTP " ++ str_of_Z (status_code response)));
                          ("details", VStr (text response))])
          else Ok (VDict [("correct", VBool false);
                          ("error", VStr (exn_msg e))])
      end
  end.

(** *** [solve_quiz_chain] *)

(** The collaborators of one chain run.  The number is that of the
    question being handled, so that each call may answer differently. *)
Record world := {
  fetch_quiz_page : nat -> value -> result string;
  solve_question : nat -> string -> result (value * value);
  requests_post : nat -> value -> value -> result response
}.

(** The lines the loop prints about the course of the run. *)
Inductive event :=
| Correct
| Incorrect
| NextReceived
| QuizComplete
| Error (e : exn).

Definition max_questions : nat := 20.

(** [response.get(k)] in the loop body: [AttributeError] when the decoded
    submission response is not a dict. *)
Definition get (v : value) (k : string) : result value :=
  match dict_get v k with
  | Some x => Ok x
  | None => Raise (mk_exn AttributeError "object has no attribute 'get'")
  end.

(** The body of the [try] for question [question_count]: the events it
    prints and the next [current_url]. *)
Definition question (self : solver) (w : world) (question_count : nat)
  (current_url : value) : result (list event * value) :=
  question_text <- fetch_quiz_page w question_count current_url ;;
  '(answer, submit_url) <- solve_question w question_count question_text ;;
  response <- submit_answer self (requests_post w question_count)
                submit_url answer ;;
  correct <- get response "correct" ;;
  next_url <- get response "url" ;;
  Ok ([if truthy correct then Correct else Incorrect;
       if truthy next_url then NextReceived else QuizComplete], next_url).

(** The [while] loop.  [fuel] bounds the unfolding; [None] would mean that
    it ran out before the loop condition failed. *)
Fixpoint chain_loop (fuel : nat) (self : solver) (w : world)
  (current_url : value) (question_count : nat) (log : list event)
  : option (nat * list event) :=
  match fuel with
  | O => None
  | S fuel' =>
      if truthy current_url && (question_count <? max_questions)%nat then
        let question_count := (question_count + 1)%nat in
        match question self w question_count current_url with
        | Ok (events, next_url) =>
            chain_loop fuel' self w next_url question_count
              (log ++ events)%list
        | Raise e => Some (question_count, (log ++ [Error e])%list)
        end
      else Some (question_count, log)
  end.

(** Returns [questions_solved] (the dict has this one entry) and the
    events printed. *)
Definition solve_quiz_chain (self : solver) (w : world) (start_url : string)
  : option (nat * list event) :=
  chain_loop (S max_questions) self w (VStr start_url) O [].

End QuizSolver.

(* ================================================================= *)
(** ** app.py *)

Module App.
Import Py.

Record QuizRequest := {
  email : string;
  secret : string;
  url : string
}.

(** [request.secret != expected] where [expected] comes from [os.getenv]. *)
Definition differs (got : string) (expected : option string) : bool :=
  match expected with
  | Some e => negb (String.eqb got e)
  | None => true
  end.

(** The handler of [POST /solve].  [run solver url] is the chain run with
    whatever it may raise; the solver is built before the [try]. *)
Definition solve_quiz (env : LLMHandler.environ)
  (run : QuizSolver.solver -> string -> result value)
  (request : QuizRequest) : result value :=
  let expected_secret := LLMHandler.SECRET_STRING env in
  if differs (secret request) expected_secret
  then Raise (mk_exn (HTTPException 403) "Invalid secret")
  else
    let expected_email := LLMHandler.STUDENT_EMAIL env in
    if differs (email request) expected_email
    then Raise (mk_exn (HTTPException 403) "Invalid email")
    else
      solver <- QuizSolver.__init__ env ;;
      match run solver (url request) with
      | Ok result =>
          Ok (VDict [("status", VStr "success");
                     ("message", VStr "Quiz solving completed");
                     ("result", result)])
      | Raise e =>
          Ok (VDict [("status", VStr "error"); ("message", VStr (exn_msg e))])
      end.

(** The chain run as the handler calls it. *)
Definition run_chain (w : QuizSolver.world)
  (solver : QuizSolver.solver) (start_url : string) : result value :=
  match QuizSolver.solve_quiz_chain solver w start_url with
  | Some (n, _) => Ok (VDict [("questions_solved", VInt (Z.of_nat n))])
  | None => Raise (mk_exn OtherException "loop did not finish")
  end.

(** What the framework sends for an outcome of the handler. *)
Definition http_status (r : result value) : Z :=
  match r with
  | Ok _ => 200
  | Raise e =>
      match exn_kind e with
      | HTTPException status => status
      | _ => 500
      end
  end.

End App.

(* ================================================================= *)
(** * Vocabulary of the statements *)

Import Py DataProcessor QuizSolver.

Fixpoint any_char (p : ascii -> bool) (s : string) : bool :=
  match s with
  | EmptyString => false
  | String c r => p c || any_char p r
  end.

Fixpoint all_char (p : ascii -> bool) (s : string) : bool :=
  match s with
  | EmptyString => true
  | String c r => p c && all_char p r
  end.


(** [s] between double quotes. *)
Definition quoted (s : string) : string :=
  String dquote (s ++ String dquote EmptyString).




(** The text that the number branch parses. *)
Definition number_text (answer : value) : string :=
  strip (remove " " (remove "," (py_str answer))).




(** Every question leads to a next URL that is not empty. *)
Definition always_next (self : solver) (w : world) : Prop :=
  forall i current_url, exists events next_url,
    question self w i current_url = Ok (events, next_url)
    /\ truthy next_url = true.

(** A grader that always accepts and always names a next question. *)
Definition endless_world : world :=
  {| fetch_quiz_page := fun _ _ => Ok "What is 6 times 7?";
     solve_question := fun _ _ => Ok (VInt 42, VStr "https://quiz.test/submit");
     requests_post := fun _ _ _ =>
       Ok {| status_code := 200;
             text := "";
             json := Ok (VDict [("correct", VBool true);
                                ("url", VStr "https://quiz.test/next")]) |} |}.

(** The same questions with the grader out of reach. *)
Definition offline_world : world :=
  {| fetch_quiz_page := fetch_quiz_page endless_world;
     solve_question := solve_question endless_world;
     requests_post := fun _ _ _ =>
       Raise (mk_exn OtherException "Connection refused") |}.

Definition failure_result (msg : string) : value :=
  VDict [("correct", VBool false); ("error", VStr msg)].

Definition http_failure_result (r : response) : value :=
  VDict [("correct", VBool false);
         ("error", VStr ("HTTP " ++ str_of_Z (status_code r)));
         ("details", VStr (text r))].

Section PdfVocabulary.

Variable DataFrame_t : Type.
Variable DataFrame :
  list (list (option string)) -> list (option string) -> result DataFrame_t.

(** What one table of a page contributes: its entry when it has a header
    row and lays out, nothing otherwise. *)
Definition table_entries (page_num : nat) (it : nat * table) 
  : list (table_entry DataFrame_t) :=
  match snd it with
  | [] => []
  | headers :: data_rows =>
      match DataFrame data_rows headers with
      | Ok df => [{| page := page_num; table_number := fst it + 1; data := df |}]
      | Raise _ => []
      end
  end.

Definition numbered {A : Type} (start : nat) (xs : list A) : list (nat * A) :=
  combine (seq start (List.length xs)) xs.

Definition page_entries (it : nat * plumber_page) 
  : list (table_entry DataFrame_t) :=
  match extract_tables (snd it) with
  | Ok page_tables => flat_map (table_entries (fst it)) (numbered 0 page_tables)
  | Raise _ => []
  end.

Definition page_text (it : nat * plumber_page) : list string :=
  match extract_text (snd it) with
  | Ok (Some t) => if truthy_str t then [page_header (fst it) t] else []
  | _ => []
  end.

Definition page_returns (pg : plumber_page) : bool :=
  match extract_text pg, extract_tables pg with
  | Ok _, Ok _ => true
  | _, _ => false
  end.

End PdfVocabulary.

Arguments numbered {A} start xs.

(** A layout rule for the worked example: every data row must be as wide
    as the header row; the frame is kept as the pair of both. *)
Definition strict_frame (data_rows : list (list (option string)))
  (headers : list (option string))
  : result (list (option string) * list (list (option string))) :=
  if forallb (fun row => (List.length row =? List.length headers)%nat) data_rows
  then Ok (headers, data_rows)
  else Raise (mk_exn ValueError "columns passed do not match the data").


(* ================================================================= *)
(** * Properties *)

(* ----------------------------------------------------------------- *)
(** *** The library model on known values *)

Example float_tenth :
  parse_float "0.1" = Some (S754_finite false 7205759403792794 (-56)).
Proof. vm_compute. reflexivity. Qed.

Example float_rounds_to_even :
  parse_float "9007199254740993" = Some (S754_finite false 4503599627370496 1).
Proof. vm_compute. reflexivity. Qed.

Example float_underscores_and_blanks :
  parse_float " 1_000.5e0 " = parse_float "1000.5"
  /\ parse_float "1__0" = None /\ parse_float "1e" = None
  /\ parse_float "-Infinity" = Some (S754_infinity true).
Proof. vm_compute. repeat split; reflexivity. Qed.

Example float_smallest_and_largest :
  parse_float "5e-324" = Some (S754_finite false 1 (-1074))
  /\ parse_float "2.4703282292062327e-324" = Some (S754_zero false)
  /\ parse_float "1.7976931348623157e308"
     = Some (S754_finite false 9007199254740991 971)
  /\ parse_float "1.7976931348623159e308" = Some (S754_infinity false).
Proof. vm_compute. repeat split; reflexivity. Qed.

Example float_repr_notation :
  float_repr (S754_finite false 7205759403792794 (-56)) = "0.1"
  /\ float_repr (S754_finite false 5902958103587057 (-69)) = "1e-05"
  /\ float_repr (S754_finite false 4768371582031250 21) = "1e+22"
  /\ float_repr (S754_finite false 5429388417957888 (-42)) = "1234.5"
  /\ float_repr (S754_finite true 7011769753764849 (-83)) = "-7.25e-10"
  /\ float_repr (S754_finite false 8483885939586761 (-36)) = "123456.789"
  /\ float_repr (S754_zero true) = "-0.0".
Proof. vm_compute. repeat split; reflexivity. Qed.

Example int_of_float_truncates :
  int_of_float (S754_finite false 5429388417957888 (-42)) = IntOk 1234
  /\ int_of_float (S754_finite true 5429388417957888 (-42)) = IntOk (-1234)
  /\ int_of_float (S754_finite false 4768371582031250 21)
     = IntOk 10000000000000000000000.
Proof. vm_compute. repeat split; reflexivity. Qed.

Example json_loads_nested :
  json_loads ("{" ++ quoted "a" ++ ": [1, 2.5, null, true], "
                  ++ quoted "b" ++ ": " ++ quoted "x\u0041" ++ "}")
  = Some (VDict [("a", VList [VInt 1;
                              VFloat (S754_finite false 5629499534213120 (-51));
                              VNone; VBool true]);
                 ("b", VStr "xA")]).
Proof. vm_compute. reflexivity. Qed.

Example json_loads_rejects :
  json_loads "[1,]" = None /\ json_loads "012" = None
  /\ json_loads "1." = None /\ json_loads "yes" = None
  /\ json_loads "" = None.
Proof. vm_compute. repeat split; reflexivity. Qed.

Example py_str_of_values :
  py_str (VDict [("k", VList [VInt 1; VStr "it's"]); ("n", VNone)])
  = "{'k': [1, " ++ quoted "it's" ++ "], 'n': None}"
  /\ py_str (VBool true) = "True"
  /\ py_str (VInt (-12)) = "-12".
Proof. vm_compute. repeat split; reflexivity. Qed.

Example manual_parse_csv_submit :
  let p := _manual_parse
             "Get https://ex.com/d.csv and POST to https://ex.com/submit now" in
  data_url p = Some "https://ex.com/d.csv"
  /\ submit_url p = "https://ex.com/submit".
Proof. vm_compute. split; reflexivity. Qed.

(* ----------------------------------------------------------------- *)
(** *** Fallback parser *)

Section ManualParse.

Lemma last_opt_cons (x : string) (l : list string) :
  last_opt (x :: l) =
  match last_opt l with Some u => Some u | None => Some x end.
Proof.
  unfold last_opt. simpl. destruct (rev l) as [|y r]; reflexivity.
Qed.

Lemma last_opt_app_one (l : list string) (x : string) :
  last_opt (l ++ [x]) = Some x.
Proof. unfold last_opt. rewrite rev_app_distr. reflexivity. Qed.

Lemma last_opt_in (l : list string) (u : string) :
  last_opt l = Some u -> In u l.
Proof.
  unfold last_opt. intros H. apply in_rev.
  destruct (rev l); inversion H. now left.
Qed.

(** The loop keeps, for each role, the last URL that passed its test. *)
Lemma classify_fold (urls : list string) :
  forall d s,
    fold_left classify_step urls (d, s) =
    (or_else (last_opt (filter is_data urls)) d,
     or_else (last_opt (filter is_submit urls)) s).
Proof.
  induction urls as [|u urls IH]; intros d s; [reflexivity|].
  cbn [fold_left filter]. unfold classify_step at 2, is_data at 1.
  destruct (is_submit u) eqn:Hs; cbn [negb andb].
  - rewrite IH, last_opt_cons.
    destruct (last_opt (filter is_submit urls)); reflexivity.
  - destruct (has_data_ext u) eqn:Hd.
    + rewrite IH, last_opt_cons.
      destruct (last_opt (filter is_data urls)); reflexivity.
    + apply IH.
Qed.

Lemma prefix_refl (s : string) : prefix s s = true.
Proof.
  induction s as [|c s IH]; [reflexivity|].
  simpl. destruct (ascii_dec c c); [exact IH | congruence].
Qed.

Lemma endswith_contains (suf s : string) :
  endswith suf s = true -> contains suf s = true.
Proof.
  induction s as [|c s IH]; cbn [endswith contains]; intros H.
  - rewrite orb_false_r in H. apply String.eqb_eq in H. now subst.
  - apply orb_true_iff in H. destruct H as [H|H].
    + apply String.eqb_eq in H. subst suf.
      rewrite (prefix_refl (String c s)). reflexivity.
    + rewrite (IH H). apply orb_true_r.
Qed.

Lemma is_submit_nonempty (u : string) : is_submit u = true -> u <> "".
Proof. intros H ->. discriminate H. Qed.

Lemma manual_parse_data_url (text : string) :
  data_url (_manual_parse text) =
  last_opt (filter is_data (findall_urls O text)).
Proof.
  unfold _manual_parse. rewrite classify_fold. cbn [data_url].
  destruct (last_opt (filter is_data _)); reflexivity.
Qed.

Lemma manual_parse_submit_url (text : string) :
  submit_url (_manual_parse text) =
  match last_opt (filter is_submit (findall_urls O text)) with
  | Some u => u
  | None => match last_opt (findall_urls O text) with
            | Some u => u
            | None => ""
            end
  end.
Proof.
  unfold _manual_parse. rewrite classify_fold. cbn [submit_url].
  set (urls := findall_urls O text).
  destruct (last_opt (filter is_submit urls)) as [v|] eqn:Hl; cbn [or_else].
  - assert (Hv : v <> "").
    { apply is_submit_nonempty.
      apply last_opt_in, filter_In in Hl. apply Hl. }
    assert (Ht : truthy_str v = true).
    { unfold truthy_str. destruct (String.eqb_spec v ""); [contradiction|reflexivity]. }
    cbn [truthy_opt]. rewrite Ht. cbn [negb andb]. now rewrite Ht.
  - cbn [truthy_opt negb andb].
    destruct urls as [|u0 urls0]; [reflexivity|].
    cbn [negb]. destruct (last_opt (u0 :: urls0)) as [w|]; [|reflexivity].
    unfold truthy_str. destruct (String.eqb_spec w ""); [now subst|reflexivity].
Qed.

(** State of the loop right after the iteration that handles [u]. *)
Lemma classify_at (pre : list string) (u : string) :
  fold_left classify_step (pre ++ [u])%list (None, None) =
  classify_step (or_else (last_opt (filter is_data pre)) None,
                 or_else (last_opt (filter is_submit pre)) None) u.
Proof. rewrite fold_left_app, classify_fold. reflexivity. Qed.

Lemma or_else_none (a : option string) : or_else a None = a.
Proof. destruct a; reflexivity. Qed.

End ManualParse.

(** C3 (as stated, refuted): a URL whose data extension is followed by a
    query string does not end in any recognised extension, and the fallback
    parser still returns it as the data source. *)
Lemma manual_parse_extension_in_middle :
  let u := "https://ex.com/data.csv?v=2" in
  data_url (_manual_parse
              ("Download " ++ u ++ " and post to https://ex.com/submit"))
  = Some u
  /\ existsb (fun ext => endswith ext (lower u)) data_extensions = false.
Proof. vm_compute. split; reflexivity. Qed.

(** C3 (amended): when the loop of the fallback parser reaches a URL [u]
    of the text, it assigns [u] to the data source exactly when [u] does not
    pass the submission test and its lowercased form contains, at any
    position, one of the extensions .pdf .csv .json .xlsx .xls; a URL that
    ends in such an extension is one of these.  The data source returned is
    the last URL of the text so assigned. *)
Theorem manual_parse_data_source
  (text : string) (pre post : list string) (u : string)
  (Hurls : findall_urls O text = (pre ++ u :: post)%list) :
  (fst (fold_left classify_step (pre ++ [u])%list (None, None)) = Some u
   <-> is_submit u = false
       /\ exists ext, In ext data_extensions
                      /\ contains ext (lower u) = true)
  /\ ((exists ext, In ext data_extensions /\ endswith ext (lower u) = true)
      -> is_submit u = false
      -> fst (fold_left classify_step (pre ++ [u])%list (None, None)) = Some u)
  /\ data_url (_manual_parse text)
     = last_opt (filter is_data (pre ++ u :: post)%list).
Proof.
  assert (Hiff :
    fst (fold_left classify_step (pre ++ [u])%list (None, None)) = Some u
    <-> is_submit u = false
        /\ exists ext, In ext data_extensions
                       /\ contains ext (lower u) = true).
  { rewrite classify_at, !or_else_none. unfold classify_step.
    assert (Hext : has_data_ext u = true <->
                   exists ext, In ext data_extensions
                               /\ contains ext (lower u) = true).
    { unfold has_data_ext. apply existsb_exists. }
    assert (Hold : last_opt (filter is_data pre) = Some u ->
                   is_submit u = false /\ has_data_ext u = true).
    { intros H. apply last_opt_in, filter_In in H. destruct H as [_ H].
      unfold is_data in H. apply andb_true_iff in H. destruct H as [H1 H2].
      apply negb_true_iff in H1. now split. }
    destruct (is_submit u) eqn:Hs; cbn [fst].
    - split; [intros H; apply Hold in H; destruct H; discriminate
             | intros [H _]; discriminate].
    - destruct (has_data_ext u) eqn:Hd; cbn [fst].
      + split; [intros _; split; [reflexivity | now apply Hext] | reflexivity].
      + split.
        * intros H. apply Hold in H. destruct H; discriminate.
        * intros [_ H]. apply Hext in H. discriminate. }
  split; [exact Hiff|]. split.
  - intros (ext & Hin & Hend) Hs. apply Hiff. split; [exact Hs|].
    exists ext. split; [exact Hin | now apply endswith_contains].
  - rewrite manual_parse_data_url, Hurls. reflexivity.
Qed.

Lemma manual_parse_data_source_witness :
  let u := "https://ex.com/data.csv?v=2" in
  fst (fold_left classify_step ([] ++ [u])%list (None, None)) = Some u
  <-> is_submit u = false
      /\ exists ext, In ext data_extensions /\ contains ext (lower u) = true.
Proof.
  exact (proj1 (manual_parse_data_source
                  "Download https://ex.com/data.csv?v=2 and post to https://ex.com/submit"
                  [] ["https://ex.com/submit"] "https://ex.com/data.csv?v=2"
                  eq_refl)).
Defined.

(** C9: in the fallback parser the submission test is tried first, so a
    URL that passes it is assigned to the submission target whatever its
    extension and is never returned as the data source; and for each role
    the last URL of the text that qualifies is the one returned (the last
    URL of all standing in as submission target when none qualifies). *)
Theorem manual_parse_priority_last_wins (text : string) :
  let urls := findall_urls O text in
  let p := _manual_parse text in
  data_url p
  = last_opt (filter (fun u => negb (is_submit u) && has_data_ext u) urls)
  /\ submit_url p
     = match last_opt (filter is_submit urls) with
       | Some u => u
       | None => match last_opt urls with Some u => u | None => "" end
       end
  /\ (forall u, is_submit u = true ->
        data_url p <> Some u
        /\ forall d s, classify_step (d, s) u = (d, Some u)).
Proof.
  cbv zeta. split; [apply manual_parse_data_url|].
  split; [apply manual_parse_submit_url|].
  intros u Hs. split.
  - rewrite manual_parse_data_url. intros H.
    apply last_opt_in, filter_In in H. destruct H as [_ H].
    unfold is_data in H. rewrite Hs in H. discriminate.
  - intros d s. unfold classify_step. now rewrite Hs.
Qed.

Lemma manual_parse_priority_last_wins_witness :
  let text := "a https://q.io/answer.json b https://q.io/1.csv c https://q.io/2.csv d https://q.io/submit/3.pdf" in
  data_url (_manual_parse text) = Some "https://q.io/2.csv"
  /\ submit_url (_manual_parse text) = "https://q.io/submit/3.pdf"
  /\ data_url (_manual_parse text) <> Some "https://q.io/answer.json".
Proof.
  destruct (manual_parse_priority_last_wins
              "a https://q.io/answer.json b https://q.io/1.csv c https://q.io/2.csv d https://q.io/submit/3.pdf")
    as (Hd & Hs & Hp).
  split; [rewrite Hd; reflexivity|].
  split; [rewrite Hs; reflexivity|].
  exact (proj1 (Hp "https://q.io/answer.json" eq_refl)).
Defined.

(* ----------------------------------------------------------------- *)
(** *** Chain driver *)

Section Chain.

Variable self : solver.
Variable w : world.

(** The loop always reaches its end within the fuel it is given, and the
    counter it returns lies between the counter it started from and the
    limit. *)
Lemma chain_loop_returns (fuel : nat) :
  forall current_url question_count log,
    (1 <= fuel)%nat ->
    (max_questions + 1 <= fuel + question_count)%nat ->
    (question_count <= max_questions)%nat ->
    exists n log',
      chain_loop fuel self w current_url question_count log = Some (n, log')
      /\ (question_count <= n <= max_questions)%nat.
Proof.
  induction fuel as [|fuel IH]; intros current_url question_count log Hf Hsum Hq;
    [lia|].
  cbn [chain_loop].
  destruct (truthy current_url && (question_count <? max_questions)%nat) eqn:Hc.
  - apply andb_true_iff in Hc. destruct Hc as [_ Hlt].
    apply Nat.ltb_lt in Hlt.
    destruct (question self w (question_count + 1) current_url)
      as [[events next_url]|e].
    + destruct (IH next_url (question_count + 1)%nat (log ++ events)%list)
        as (n & log' & Hrun & Hn); try lia.
      exists n, log'. split; [exact Hrun | lia].
    + eexists _, _. split; [reflexivity | lia].
  - eexists _, _. split; [reflexivity | lia].
Qed.

Lemma chain_loop_runs_to_limit (Hnext : always_next self w) (fuel : nat) :
  forall current_url question_count log n log',
    truthy current_url = true ->
    (max_questions + 1 <= fuel + question_count)%nat ->
    (question_count <= max_questions)%nat ->
    chain_loop fuel self w current_url question_count log = Some (n, log') ->
    n = max_questions.
Proof.
  induction fuel as [|fuel IH];
    intros current_url question_count log n log' Hurl Hsum Hq Hrun;
    [discriminate Hrun|].
  cbn [chain_loop] in Hrun. rewrite Hurl in Hrun. cbn [andb] in Hrun.
  destruct (question_count <? max_questions)%nat eqn:Hlt.
  - apply Nat.ltb_lt in Hlt.
    destruct (Hnext (question_count + 1)%nat current_url)
      as (events & next_url & Hq1 & Ht).
    rewrite Hq1 in Hrun.
    eapply IH; [exact Ht | | | exact Hrun]; lia.
  - apply Nat.ltb_ge in Hlt. inversion Hrun; subst. lia.
Qed.

End Chain.

(** C1: a chain run always ends with a counter of at most 20; and when the
    start URL is not empty and every question is answered by a submission
    response that carries a non-empty next url, it ends with exactly 20,
    the value returned as questions_solved. *)
Theorem chain_stops_at_safety_limit
  (self : solver) (w : world) (start_url : string) :
  exists n log,
    solve_quiz_chain self w start_url = Some (n, log)
    /\ (n <= 20)%nat
    /\ (truthy_str start_url = true -> always_next self w -> n = 20%nat).
Proof.
  unfold solve_quiz_chain.
  destruct (chain_loop_returns self w (S max_questions) (VStr start_url) O [])
    as (n & log & Hrun & Hn); cbn [max_questions]; try lia.
  exists n, log. split; [exact Hrun|]. split; [exact (proj2 Hn)|].
  intros Hstart Hnext.
  apply (chain_loop_runs_to_limit self w Hnext (S max_questions)
           (VStr start_url) O [] n log); cbn [max_questions truthy]; try lia;
    assumption.
Qed.

Lemma chain_stops_at_safety_limit_witness :
  exists log,
    solve_quiz_chain {| QuizSolver.email := Some "a@b.c"; QuizSolver.secret := Some "s" |}
      endless_world "https://quiz.test/start" = Some (20%nat, log).
Proof.
  destruct (chain_stops_at_safety_limit
              {| QuizSolver.email := Some "a@b.c"; QuizSolver.secret := Some "s" |}
              endless_world "https://quiz.test/start")
    as (n & log & Hrun & _ & H20).
  exists log. rewrite Hrun. f_equal. f_equal. apply H20.
  - reflexivity.
  - intros i current_url. eexists _, _. split; reflexivity.
Defined.

(* ----------------------------------------------------------------- *)
(** *** HTTP boundary *)

Lemma differs_false (got : string) (expected : option string) :
  App.differs got expected = false <-> expected = Some got.
Proof.
  unfold App.differs. destruct expected as [e|]; [|split; discriminate].
  rewrite negb_false_iff, String.eqb_eq. split; [now intros -> | congruence].
Qed.

(** With the API key configured, whatever the run raises is reported in
    the body of a 200 response. *)
Lemma solve_quiz_reports_errors
  (env : LLMHandler.environ) (run : solver -> string -> result value)
  (request : App.QuizRequest) :
  LLMHandler.SECRET_STRING env = Some (App.secret request) ->
  LLMHandler.STUDENT_EMAIL env = Some (App.email request) ->
  truthy_opt (LLMHandler.GEMINI_API_KEY env) = true ->
  exists body, App.solve_quiz env run request = Ok body
               /\ exists st, assoc "status" match body with VDict kvs => kvs | _ => [] end
                             = Some (VStr st)
                             /\ (st = "success" \/ st = "error").
Proof.
  intros Hs He Hk. unfold App.solve_quiz.
  rewrite (proj2 (differs_false _ _) Hs), (proj2 (differs_false _ _) He).
  unfold QuizSolver.__init__, DataProcessor.__init__, LLMHandler.__init__.
  rewrite Hk. cbn [negb bind].
  destruct (run _ _) as [r|e]; eexists; (split; [reflexivity|]);
    eexists; (split; [reflexivity|]); auto.
Qed.

(** C2 (the code departs from the claim): with matching email and secret
    but no API key in the environment, building the solver raises
    ValueError before the try block is entered; the handler lets it
    through and the request fails with status 500. *)
Theorem solve_quiz_missing_api_key
  (run : solver -> string -> result value) (start_url : string) :
  let env := {| LLMHandler.SECRET_STRING := Some "s3cret";
                LLMHandler.STUDENT_EMAIL := Some "student@example.com";
                LLMHandler.GEMINI_API_KEY := None |} in
  let request := {| App.email := "student@example.com";
                    App.secret := "s3cret";
                    App.url := start_url |} in
  App.solve_quiz env run request
  = Raise (mk_exn ValueError "GEMINI_API_KEY not found in environment variables")
  /\ App.http_status (App.solve_quiz env run request) = 500.
Proof. split; reflexivity. Qed.

(* ----------------------------------------------------------------- *)
(** *** Submission *)

(** C7 (as stated, refuted): a 304 response with an empty body is not a
    2xx response, yet it does not raise on the status check; the result
    is the plain error dict of the decoding failure, without details.
    And a submission that fails ends the run: the result has no url. *)
Lemma submit_answer_not_modified :
  let self := {| QuizSolver.email := Some "a@b.c"; QuizSolver.secret := Some "s" |} in
  let r := {| status_code := 304; text := "";
              json := Raise (mk_exn ValueError
                               "Expecting value: line 1 column 1 (char 0)") |} in
  submit_answer self (fun _ _ => Ok r) (VStr "https://quiz.test/submit") (VInt 42)
  = Ok (failure_result "Expecting value: line 1 column 1 (char 0)")
  /\ submit_answer self (fun _ _ => Ok r) (VStr "https://quiz.test/submit") (VInt 42)
     <> Ok (http_failure_result r)
  /\ solve_quiz_chain self offline_world "https://quiz.test/start"
     = Some (1%nat, [Incorrect; QuizComplete]).
Proof. vm_compute. repeat split; try reflexivity. discriminate. Qed.

(** C7 (amended): a response with a status from 400 to 599 is converted
    into correct false, error HTTP status, details body text; any other
    error raised while posting or while decoding the body into correct
    false, error message; a response with any other status is decoded and
    returned as it is.  Provided the post call itself raises no HTTPError
    (the library raises it from the status check only), submit_answer
    returns and raises nothing.  A submission that failed gives a result
    without url: the question is logged as incorrect and the loop ends
    after it, not through the exception path. *)
Theorem submit_answer_converts_failures
  (self : solver) (w : world) (i : nat) (current_url : value)
  (question_text : string) (answer submit_url : value)
  (Hfetch : fetch_quiz_page w i current_url = Ok question_text)
  (Hsolve : solve_question w i question_text = Ok (answer, submit_url))
  (Hpost : forall u p e,
      requests_post w i u p = Raise e -> is_http_error e = false) :
  exists body,
    submit_answer self (requests_post w i) submit_url answer = Ok body
    /\ body =
       match requests_post w i submit_url (submission_payload self answer) with
       | Raise e => failure_result (exn_msg e)
       | Ok r =>
           if (400 <=? status_code r) && (status_code r <? 600)
           then http_failure_result r
           else match json r with
                | Ok v => v
                | Raise e => if is_http_error e then http_failure_result r
                             else failure_result (exn_msg e)
                end
       end
    /\ (((exists msg, body = failure_result msg)
         \/ (exists r, body = http_failure_result r)) ->
        question self w i current_url = Ok ([Incorrect; QuizComplete], VNone)).
Proof.
  assert (Hsub : exists body,
    submit_answer self (requests_post w i) submit_url answer = Ok body
    /\ body =
       match requests_post w i submit_url (submission_payload self answer) with
       | Raise e => failure_result (exn_msg e)
       | Ok r =>
           if (400 <=? status_code r) && (status_code r <? 600)
           then http_failure_result r
           else match json r with
                | Ok v => v
                | Raise e => if is_http_error e then http_failure_result r
                             else failure_result (exn_msg e)
                end
       end).
  { unfold submit_answer.
    destruct (requests_post w i submit_url (submission_payload self answer))
      as [r|e] eqn:Hp.
    - unfold raise_for_status.
      destruct ((400 <=? status_code r) && (status_code r <? 600));
        cbn [bind is_http_error exn_kind].
      + eexists. split; reflexivity.
      + destruct (json r) as [v|e]; [eexists; split; reflexivity|].
        destruct (is_http_error e); eexists; split; reflexivity.
    - rewrite (Hpost _ _ _ Hp). eexists. split; reflexivity. }
  destruct Hsub as (body & Hrun & Hbody).
  exists body. split; [exact Hrun|]. split; [exact Hbody|].
  intros Hfail. unfold question.
  rewrite Hfetch. cbn [bind]. rewrite Hsolve. cbn [bind]. rewrite Hrun.
  cbn [bind].
  destruct Hfail as [[msg ->]|[r ->]]; reflexivity.
Qed.

Lemma submit_answer_converts_failures_witness :
  question {| QuizSolver.email := Some "a@b.c"; QuizSolver.secret := Some "s" |}
    offline_world 3 (VStr "https://quiz.test/q3")
  = Ok ([Incorrect; QuizComplete], VNone).
Proof.
  destruct (submit_answer_converts_failures
              {| QuizSolver.email := Some "a@b.c"; QuizSolver.secret := Some "s" |}
              offline_world 3 (VStr "https://quiz.test/q3")
              "What is 6 times 7?" (VInt 42) (VStr "https://quiz.test/submit")
              eq_refl eq_refl)
    as (body & _ & Hbody & Hq).
  - intros u p e H. injection H as <-. reflexivity.
  - apply Hq. left. exists "Connection refused". exact Hbody.
Defined.

(* ----------------------------------------------------------------- *)
(** *** PDF extraction *)

Section PdfProps.

Variable DataFrame_t : Type.
Variable DataFrame :
  list (list (option string)) -> list (option string) -> result DataFrame_t.

Lemma page_tables_loop_spec (page_num : nat) (page_tables : list table) :
  forall table_idx acc,
    page_tables_loop DataFrame_t DataFrame page_num table_idx page_tables acc
    = (acc ++ flat_map (table_entries DataFrame_t DataFrame page_num)
                (numbered table_idx page_tables))%list.
Proof.
  induction page_tables as [|t rest IH]; intros table_idx acc.
  - cbn. now rewrite app_nil_r.
  - cbn [page_tables_loop]. rewrite IH. unfold numbered.
    cbn [List.length seq combine flat_map]. unfold table_entries at 2.
    cbn [fst snd].
    destruct t as [|headers data_rows]; [reflexivity|].
    destruct (DataFrame data_rows headers); [|reflexivity].
    now rewrite <- app_assoc.
Qed.

Lemma plumber_loop_spec (pages : list plumber_page) :
  forall page_num text_data acc,
    forallb page_returns pages = true ->
    plumber_loop DataFrame_t DataFrame page_num pages text_data acc
    = ((text_data ++ flat_map page_text (numbered page_num pages))%list,
       (acc ++ flat_map (page_entries DataFrame_t DataFrame) (numbered page_num pages))%list,
       None).
Proof.
  induction pages as [|pg rest IH]; intros page_num text_data acc Hall.
  - cbn. now rewrite !app_nil_r.
  - cbn [forallb] in Hall. apply andb_true_iff in Hall.
    destruct Hall as [Hpg Hrest].
    cbn [plumber_loop]. unfold numbered.
    cbn [List.length seq combine flat_map].
    unfold page_returns in Hpg. unfold page_text at 1, page_entries at 1.
    cbn [fst snd].
    destruct (extract_text pg) as [t|]; [|discriminate].
    destruct (extract_tables pg) as [page_tables|]; [|discriminate].
    destruct t as [t|]; [destruct (truthy_str t)|];
      rewrite IH by exact Hrest; rewrite page_tables_loop_spec;
      unfold numbered; cbn [app]; rewrite <- ?app_assoc; reflexivity.
Qed.

End PdfProps.

(** C8: a table that cannot be laid out is left out on its own.  When
    every page call returns, the result holds the text of every page that
    has some and one entry for each table that lays out, whatever happens
    to the other tables; and for a document with one malformed table on
    page 1 and one valid table on page 2, the text of both pages and the
    single entry of page 2, table 1. *)
Theorem extract_pdf_skips_malformed_tables
  (DataFrame_t : Type)
  (DataFrame :
     list (list (option string)) -> list (option string) -> result DataFrame_t) :
  (forall pages pypdf2,
      forallb page_returns pages = true ->
      extract_pdf_data DataFrame_t DataFrame (Ok pages) pypdf2
      = {| DataProcessor.text :=
             join (String nl (String nl EmptyString))
                  (flat_map page_text (numbered 1 pages));
           tables :=
             flat_map (page_entries DataFrame_t DataFrame) (numbered 1 pages) |})
  /\ (forall text1 text2 headers1 rows1 headers2 rows2 e df pypdf2,
         truthy_str text1 = true ->
         truthy_str text2 = true ->
         DataFrame rows1 headers1 = Raise e ->
         DataFrame rows2 headers2 = Ok df ->
         extract_pdf_data DataFrame_t DataFrame
           (Ok [ {| extract_text := Ok (Some text1);
                    extract_tables := Ok [headers1 :: rows1] |};
                 {| extract_text := Ok (Some text2);
                    extract_tables := Ok [headers2 :: rows2] |} ])
           pypdf2
         = {| DataProcessor.text :=
                page_header 1 text1
                ++ String nl (String nl (page_header 2 text2));
              tables := [ {| page := 2; table_number := 1; data := df |} ] |}).
Proof.
  split.
  - intros pages pypdf2 Hall. unfold extract_pdf_data.
    rewrite plumber_loop_spec by exact Hall. reflexivity.
  - intros text1 text2 headers1 rows1 headers2 rows2 e df pypdf2 H1 H2 Hbad Hgood.
    unfold extract_pdf_data.
    cbn [plumber_loop extract_text extract_tables page_tables_loop].
    rewrite H1, H2, Hbad, Hgood. reflexivity.
Qed.

Lemma extract_pdf_skips_malformed_tables_witness :
  extract_pdf_data _ strict_frame
    (Ok [ {| extract_text := Ok (Some "Intro");
             extract_tables := Ok [[[Some "a"; Some "b"]; [Some "1"]]] |};
          {| extract_text := Ok (Some "Totals");
             extract_tables := Ok [[[Some "k"; Some "v"]; [Some "x"; Some "7"]]] |} ])
    (Raise (mk_exn OtherException "unused"))
  = {| DataProcessor.text :=
         page_header 1 "Intro" ++ String nl (String nl (page_header 2 "Totals"));
       tables := [ {| page := 2; table_number := 1;
                      data := ([Some "k"; Some "v"], [[Some "x"; Some "7"]]) |} ] |}.
Proof.
  apply (proj2 (extract_pdf_skips_malformed_tables _ strict_frame)
           "Intro" "Totals" [Some "a"; Some "b"] [[Some "1"]]
           [Some "k"; Some "v"] [[Some "x"; Some "7"]]
           (mk_exn ValueError "columns passed do not match the data"));
    reflexivity.
Defined.

(* ----------------------------------------------------------------- *)
(** *** Answer coercion: boolean *)

Ltac by_cases_on_char c :=
  destruct c as [[] [] [] [] [] [] [] []]; vm_compute; reflexivity.

Lemma isspace_lower_char (c : ascii) : isspace (lower_char c) = isspace c.
Proof. by_cases_on_char c. Qed.

Lemma any_char_app (p : ascii -> bool) (a b : string) :
  any_char p (a ++ b) = any_char p a || any_char p b.
Proof.
  induction a as [|c a IH]; [reflexivity|].
  cbn [append any_char]. now rewrite IH, orb_assoc.
Qed.

Lemma any_space_lower (s : string) :
  any_char isspace (lower s) = any_char isspace s.
Proof.
  induction s as [|c s IH]; [reflexivity|].
  cbn [lower any_char]. now rewrite isspace_lower_char, IH.
Qed.

Lemma all_any_nonempty (p : ascii -> bool) (s : string) :
  all_char p s = true -> s <> "" -> any_char p s = true.
Proof.
  destruct s as [|c s]; [congruence|].
  cbn [all_char any_char]. intros H _.
  apply andb_true_iff in H. now rewrite (proj1 H).
Qed.

Lemma boolean_words_no_space (x : string) :
  In x boolean_words -> any_char isspace x = false.
Proof.
  intros H. repeat (destruct H as [<-|H]; [reflexivity|]). destruct H.
Qed.

Lemma in_list_In (x : string) (xs : list string) :
  in_list x xs = true <-> In x xs.
Proof.
  unfold in_list. rewrite existsb_exists. split.
  - intros (y & Hin & Heq). apply String.eqb_eq in Heq. now subst.
  - intros Hin. exists x. split; [exact Hin | apply String.eqb_refl].
Qed.

(** C4 (as stated, refuted): the string yes between two spaces is a member
    of the set once trimmed and lowercased, and it coerces to false. *)
Lemma format_boolean_untrimmed :
  in_list (lower (strip " yes ")) boolean_words = true
  /\ _format_answer (VStr " yes ") "boolean" = VBool false.
Proof. split; reflexivity. Qed.

(** C4 (amended): boolean coercion returns true exactly when the
    lowercased string form of the value, taken as it is and not trimmed,
    is one of true, 1, yes, correct, y.  So Yes gives true and no gives
    false, and a value that is a member of the set wrapped in whitespace
    gives false. *)
Theorem format_boolean_membership (answer : value) :
  (exists b, _format_answer answer "boolean" = VBool b
             /\ (b = true <-> In (lower (py_str answer)) boolean_words))
  /\ _format_answer (VStr "Yes") "boolean" = VBool true
  /\ _format_answer (VStr "no") "boolean" = VBool false
  /\ (forall before word after,
         In word boolean_words ->
         py_str answer = before ++ word ++ after ->
         all_char isspace before = true ->
         all_char isspace after = true ->
         before ++ after <> "" ->
         _format_answer answer "boolean" = VBool false).
Proof.
  split; [|split; [reflexivity|split; [reflexivity|]]].
  - eexists. split; [reflexivity|]. apply in_list_In.
  - intros before word after Hw Hstr Hb Ha Hne.
    change (_format_answer answer "boolean")
      with (VBool (in_list (lower (py_str answer)) boolean_words)).
    f_equal. apply not_true_is_false. intros Hin.
    apply in_list_In, boolean_words_no_space in Hin.
    rewrite any_space_lower, Hstr, !any_char_app in Hin.
    destruct before as [|c before].
    + cbn [append] in Hne.
      rewrite (all_any_nonempty _ _ Ha Hne), !orb_true_r in Hin. discriminate.
    + rewrite (all_any_nonempty _ _ Hb) in Hin by discriminate. discriminate.
Qed.

Lemma format_boolean_membership_witness :
  _format_answer (VStr " yes ") "boolean" = VBool false.
Proof.
  apply (proj2 (proj2 (proj2 (format_boolean_membership (VStr " yes "))))
           " " "yes" " ").
  - right. right. left. reflexivity.
  - reflexivity.
  - reflexivity.
  - reflexivity.
  - discriminate.
Defined.

(* ----------------------------------------------------------------- *)
(** *** Answer coercion: number *)

(** C6 (as stated, refuted): inf has no decimal point and parses as a
    float, yet no integer comes back: the input is returned unchanged. *)
Lemma format_number_infinity :
  parse_float (number_text (VStr "inf")) = Some (S754_infinity false)
  /\ contains "." (number_text (VStr "inf")) = false
  /\ _format_answer (VStr "inf") "number" = VStr "inf".
Proof. vm_compute. repeat split; reflexivity. Qed.

(** C6 (amended): number coercion removes commas and spaces from the
    string form and parses the rest as a float.  With a decimal point in
    the cleaned text the float is returned; without one, the float
    truncated to an integer when it is finite.  The input value is
    returned unchanged when parsing fails, and also when there is no
    decimal point and the float is infinite or NaN.  So 42 gives the
    integer 42 and 42.5 the float 42.5. *)
Theorem format_number_cases (answer : value) :
  _format_answer answer "number"
  = match parse_float (number_text answer) with
    | None => answer
    | Some f =>
        if contains "." (number_text answer) then VFloat f
        else match f with
             | S754_zero _ => VInt 0
             | S754_finite s m e =>
                 let a := if 0 <=? e then Zpos m * 2 ^ e
                          else Zpos m / 2 ^ (- e) in
                 VInt (if s then - a else a)
             | S754_infinity _ | S754_nan => answer
             end
    end
  /\ _format_answer (VStr "42") "number" = VInt 42
  /\ (exists f, _format_answer (VStr "42.5") "number" = VFloat f
                 /\ f = S754_finite false (85 * 2 ^ 46) (-47)
                 /\ float_repr f = "42.5")
  /\ _format_answer (VStr "1,234") "number" = VInt 1234.
Proof.
  split; [|split; [vm_compute; reflexivity|split]].
  2: { eexists. split; [vm_compute; reflexivity|].
       split; [reflexivity | vm_compute; reflexivity]. }
  2: { vm_compute; reflexivity. }
  unfold _format_answer, number_text. cbn [String.eqb Ascii.eqb Bool.eqb].
  destruct (parse_float _) as [f|]; [|reflexivity].
  destruct (contains "." _); [reflexivity|].
  destruct f; reflexivity.
Qed.

(* ----------------------------------------------------------------- *)
(** *** Text cleaning *)





(* ----------------------------------------------------------------- *)
(** *** Rounding to binary64 *)

















(* ----------------------------------------------------------------- *)
(** *** The decimal form of an int, read back *)


Lemma digit_not_sign c :
  is_digit c = true -> Ascii.eqb c "-" = false /\ Ascii.eqb c "+" = false.
Proof. destruct c as [[] [] [] [] [] [] [] []]; vm_compute; intros; try discriminate; now split. Qed.





















(* ----------------------------------------------------------------- *)
(** *** Answer coercion applied twice *)








